(** * APIBridge: configuration gate, agent hand-off and demo payment endpoints

    A shallow embedding of [tools_generator/agent.py] (the shared
    [state_data] dictionary, its setters, [validate_state], [create_agent]
    and [write_code_to_tool]) and of the payment handlers of
    [gcp/server.py], together with the properties the design document
    states about them. *)

From Stdlib Require Import NArith ZArith Ascii Floats.PrimFloat.
From stdpp Require Import gmap strings list fin_maps.

Local Open Scope N_scope.
Local Set Warnings "-register-all".

(** ** Python strings *)

(** A Python [str] is a sequence of Unicode code points. *)
Module Py.

(** Code points of a literal, one per character. *)
Fixpoint lit (s : string) : list N :=
  match s with
  | EmptyString => []
  | String c s' => N_of_ascii c :: lit s'
  end.

(** [Py_UNICODE_ISSPACE]: the code points [str.strip()] removes. *)
Definition is_space (c : N) : bool :=
  ((0x09 <=? c) && (c <=? 0x0D))
  || ((0x1C <=? c) && (c <=? 0x20))
  || (c =? 0x85) || (c =? 0xA0) || (c =? 0x1680)
  || ((0x2000 <=? c) && (c <=? 0x200A))
  || (c =? 0x2028) || (c =? 0x2029) || (c =? 0x202F)
  || (c =? 0x205F) || (c =? 0x3000).

(** [s.lstrip()] *)
Fixpoint lstrip (s : list N) : list N :=
  match s with
  | [] => []
  | c :: s' => if is_space c then lstrip s' else s
  end.

(** [s.rstrip()] *)
Definition rstrip (s : list N) : list N := reverse (lstrip (reverse s)).

(** [s.strip()] *)
Definition strip (s : list N) : list N := rstrip (lstrip s).

(** [s == t] on strings. *)
Definition eqb (s t : list N) : bool := bool_decide (s = t).

(** A string made of whitespace only (the empty string included). *)
Definition blank (s : list N) : Prop := Forall (λ c, is_space c = true) s.

(** The surrogate code points, which UTF-8 has no encoding for. *)
Definition is_surrogate (c : N) : bool := (0xD800 <=? c) && (c <=? 0xDFFF).

(** [s.encode("utf-8")] succeeds with the strict error handler. *)
Definition encodable (s : list N) : bool :=
  forallb (λ c, negb (is_surrogate c)) s.

End Py.

(** ** Exceptions and the state-and-exception monad *)

Inductive exn : Type :=
| KeyError (key : list N)
| AttributeError (attr : string)
| UnicodeEncodeError
| HTTPException (status_code : Z) (detail : list N).

Inductive result (A : Type) : Type :=
| Ok (a : A)
| Raise (e : exn).
Arguments Ok {A} a.
Arguments Raise {A} e.

(** A computation over a store [S]: it returns or raises, and in both cases
    leaves the store as it was at that point. *)
Definition M (S A : Type) : Type := S → result A * S.

Definition ret {S A} (a : A) : M S A := λ s, (Ok a, s).
Definition raise {S A} (e : exn) : M S A := λ s, (Raise e, s).
Definition bind {S A B} (m : M S A) (k : A → M S B) : M S B :=
  λ s, match m s with
       | (Ok a, s') => k a s'
       | (Raise e, s') => (Raise e, s')
       end.
Definition gets {S A} (f : S → A) : M S A := λ s, (Ok (f s), s).
Definition modify {S} (f : S → S) : M S unit := λ s, (Ok tt, f s).

Declare Scope py_scope.
Delimit Scope py_scope with py.
Notation "x <- m ;; k" := (bind m (λ x, k))
  (at level 100, m at next level, right associativity) : py_scope.
Notation "m ;; k" := (bind m (λ _, k))
  (at level 100, right associativity) : py_scope.

(** ** tools_generator/agent.py *)

Module Agent.

(** Modelled from the spec: [tools_generator.generator.agent_generator] is
    not among the sources. An [AgentGenerator] instance is the agent handle:
    it is built from the organisation name it is given. *)
Record AgentGenerator (V : Type) : Type := { agent_org_name : V }.
Arguments agent_org_name {V} _.

(** What a slot of [state_data] can hold. *)
Inductive value : Type :=
| VNone
| VStr (s : list N)
| VAgent (ag : AgentGenerator value).

(** Observable actions, oldest first: what was printed, and each entry into
    [create_agent], the [AgentGenerator] constructor and [write_to_tool]. *)
Inductive event : Type :=
| EvPrint (text : list N)
| EvCreateAgent
| EvAgentGenerator (org_name : value)
| EvWriteToTool (code : list N).

(** The process state: the module-level dictionary, the generated tool
    module (its appended fragments, oldest first) and the actions so far. *)
Record world : Type := {
  state_data : gmap string value;
  tool_module : list (list N);
  trace : list event;
}.

Definition with_state_data (f : gmap string value → gmap string value)
    (w : world) : world :=
  {| state_data := f (state_data w);
     tool_module := tool_module w;
     trace := trace w |}.

Definition with_tool_module (f : list (list N) → list (list N))
    (w : world) : world :=
  {| state_data := state_data w;
     tool_module := f (tool_module w);
     trace := trace w |}.

Definition emit (e : event) : M world unit :=
  modify (λ w, {| state_data := state_data w;
                  tool_module := tool_module w;
                  trace := trace w ++ [e] |}).

(** [print(text)]. Standard output is a UTF-8 text stream with the strict
    error handler: a text that cannot be encoded raises and nothing of it is
    written. *)
Definition print (text : list N) : M world unit :=
  if Py.encodable text then emit (EvPrint text) else raise UnicodeEncodeError.

(** What [print(text)] adds to the trace. *)
Definition printed (text : list N) : list event :=
  if Py.encodable text then [EvPrint text] else [].

(** The dictionary as the module defines it on import. *)
Definition initial_state_data : gmap string value :=
  <["org_name" := VStr []]> (<["base_url" := VStr []]>
    (<["swagger_json" := VStr []]> ∅)).

Definition initial_world : world :=
  {| state_data := initial_state_data; tool_module := []; trace := [] |}.

Local Open Scope py_scope.

(** Modelled from the spec: the constructor [AgentGenerator(org_name)] of
    the absent class returns a handle for that organisation and leaves the
    generated tool module as it is. *)
Definition AgentGenerator_new (org_name : value)
    : M world (AgentGenerator value) :=
  emit (EvAgentGenerator org_name) ;;
  ret {| agent_org_name := org_name |}.

(** Modelled from the spec: [AgentGenerator.write_to_tool(code)] of the
    absent class appends the fragment after all earlier ones. *)
Definition write_to_tool (self : AgentGenerator value) (code : list N)
    : M world unit :=
  emit (EvWriteToTool code) ;;
  modify (with_tool_module (λ fragments, fragments ++ [code])).

(** [state_data[key] = v] *)
Definition setitem (key : string) (v : value) : M world unit :=
  modify (with_state_data (insert key v)).

(** [state_data[key]] *)
Definition getitem (key : string) : M world value :=
  λ w, match state_data w !! key with
       | Some v => (Ok v, w)
       | None => (Raise (KeyError (Py.lit key)), w)
       end.

Definition set_org_name (org_name : list N) : M world unit :=
  setitem "org_name" (VStr org_name) ;;
  print (Py.lit "Organization name set to: " ++ org_name).

Definition set_base_url (base_url : list N) : M world unit :=
  setitem "base_url" (VStr base_url) ;;
  print (Py.lit "Base URL set to: " ++ base_url).

Definition set_swagger_json (swagger_json : list N) : M world unit :=
  setitem "swagger_json" (VStr swagger_json) ;;
  print (Py.lit "Swagger JSON specification set.").

Definition create_agent : M world (AgentGenerator value) :=
  emit EvCreateAgent ;;
  org_name <- getitem "org_name" ;;
  ag <- AgentGenerator_new org_name ;;
  setitem "agent" (VAgent ag) ;;
  ret ag.

(** [isinstance(state_data.get(key), str) and state_data[key].strip() != ""] *)
Definition field_set (d : gmap string value) (key : string) : bool :=
  match d !! key with
  | Some (VStr s) => negb (Py.eqb (Py.strip s) [])
  | _ => false
  end.

Definition required_keys : list string :=
  ["org_name"; "base_url"; "swagger_json"]%string.

(** On the valid branch the source also reads the module global
    [tool_generation_agent] into a local; the call [agent.write_to_tool(res)]
    that follows is commented out there. *)
Definition validate_state : M world bool :=
  d <- gets state_data ;;
  let is_valid := forallb (field_set d) required_keys in
  if is_valid then
    create_agent ;;
    ret is_valid
  else ret is_valid.

Definition write_code_to_tool (code : list N) : M world unit :=
  agent <- getitem "agent" ;;
  match agent with
  | VAgent ag => write_to_tool ag code
  | _ => raise (AttributeError "write_to_tool")
  end.

(** The error the design calls [MissingHandleError]: the subscript
    [state_data["agent"]] on a dictionary without that key. *)
Definition MissingHandleError : exn := KeyError (Py.lit "agent").

(** *** The configuration invariant, as the design states it *)

(** The slot [key] holds a string that is non-empty after trimming. *)
Definition nonempty_after_trim (d : gmap string value) (key : string) : Prop :=
  ∃ s, d !! key = Some (VStr s) ∧ Py.strip s ≠ [].

(** The slot [key] holds an empty or whitespace-only string. *)
Definition blank_field (d : gmap string value) (key : string) : Prop :=
  ∃ s, d !! key = Some (VStr s) ∧ Py.blank s.

Definition valid_configuration (d : gmap string value) : Prop :=
  nonempty_after_trim d "org_name"
  ∧ nonempty_after_trim d "base_url"
  ∧ nonempty_after_trim d "swagger_json".

(** The world right after a successful [create_agent] that read [org_name]. *)
Definition bound (org_name : value) (w : world) : world :=
  {| state_data :=
       <["agent" := VAgent {| agent_org_name := org_name |}]> (state_data w);
     tool_module := tool_module w;
     trace := trace w ++ [EvCreateAgent; EvAgentGenerator org_name] |}.

(** *** Sessions *)

(** The tool calls a session is made of. *)
Inductive call : Type :=
| CallSetOrgName (org_name : list N)
| CallSetBaseUrl (base_url : list N)
| CallSetSwaggerJson (swagger_json : list N)
| CallValidateState
| CallCreateAgent
| CallWriteCodeToTool (code : list N).

(** Outcome of a call, without its return value: [None] when it returned,
    the exception when it raised. *)
Definition outcome {A} (r : result A) : option exn :=
  match r with Ok _ => None | Raise e => Some e end.

Definition step (c : call) (w : world) : option exn * world :=
  match c with
  | CallSetOrgName v => let '(r, w') := set_org_name v w in (outcome r, w')
  | CallSetBaseUrl v => let '(r, w') := set_base_url v w in (outcome r, w')
  | CallSetSwaggerJson v =>
      let '(r, w') := set_swagger_json v w in (outcome r, w')
  | CallValidateState => let '(r, w') := validate_state w in (outcome r, w')
  | CallCreateAgent => let '(r, w') := create_agent w in (outcome r, w')
  | CallWriteCodeToTool code =>
      let '(r, w') := write_code_to_tool code w in (outcome r, w')
  end.

(** A session carries on after a call that raised. *)
Definition run (cs : list call) (w : world) : world :=
  foldl (λ w c, snd (step c w)) w cs.

(** No [create_agent] has been entered so far. *)
Definition no_create_agent_yet (w : world) : Prop := EvCreateAgent ∉ trace w.

(** *** Sample sessions *)

(** The three setters called one after the other, as three tool calls: a
    call that raised does not keep the next one from being made. *)
Definition configure (org_name base_url swagger_json : list N)
    : M world unit :=
  λ w, set_swagger_json swagger_json
         (snd (set_base_url base_url (snd (set_org_name org_name w)))).

(** All three values collected. *)
Definition acme_world : world :=
  snd (configure (Py.lit "Acme") (Py.lit "https://api.acme.com")
         (Py.lit "{ }") initial_world).

(** Only the organisation name collected. *)
Definition acme_only_world : world :=
  snd (set_org_name (Py.lit "Acme") initial_world).

(** *** The setter contract, as the design states it *)





(** *** The orchestrator's tools *)

(** [root_agent] is built with
    [tools=[set_org_name, set_base_url, set_swagger_json, validate_state]]:
    the calls the orchestrator itself can make. *)
Definition root_agent_tool (c : call) : bool :=
  match c with
  | CallSetOrgName _ | CallSetBaseUrl _ | CallSetSwaggerJson _
  | CallValidateState => true
  | CallCreateAgent | CallWriteCodeToTool _ => false
  end.

(** The slot ["agent"] holds a handle. *)
Definition handle_bound (d : gmap string value) : Prop :=
  ∃ ag, d !! "agent" = Some (VAgent ag).

(** Each of the three configuration slots holds a string. *)
Definition fields_are_strings (d : gmap string value) : Prop :=
  ∀ key, key ∈ required_keys → ∃ s, d !! key = Some (VStr s).

End Agent.

(** ** gcp/server.py: the payment handlers *)

Module Server.

Record PaymentInitiationRequest : Type := {
  debtor_account : list N;
  creditor_account : list N;
  amount : float;
  currency : list N;
  reference : option (list N);
}.

Record PaymentInitiationResponse : Type := {
  init_payment_id : list N;
  init_status : list N;
  init_created_at : list N;
}.

Record PaymentStatusResponse : Type := {
  st_payment_id : list N;
  st_status : list N;
  st_processed_at : option (list N);
  st_amount : float;
  st_currency : list N;
  st_reference : option (list N);
}.

(** The dictionary stored under a payment id. It always has these five
    keys, so it is never falsy. *)
Record payment : Type := {
  pay_status : list N;
  pay_amount : float;
  pay_currency : list N;
  pay_reference : option (list N);
  pay_created_at : list N;
}.

Record payout : Type := {
  out_status : list N;
  out_amount : float;
  out_currency : list N;
  out_sent_at : list N;
}.

(** The two module-level dictionaries. *)
Record store : Type := {
  payments_store : gmap (list N) payment;
  payouts_store : gmap (list N) payout;
}.

Definition initial_store : store :=
  {| payments_store := ∅; payouts_store := ∅ |}.

Definition sample_request : PaymentInitiationRequest :=
  {| debtor_account := Py.lit "ACC-1";
     creditor_account := Py.lit "ACC-2";
     amount := 100%float;
     currency := Py.lit "USD";
     reference := None |}.

Local Open Scope py_scope.

(** The handlers take what the environment supplies as arguments:
    [uuid] is [str(uuid4())] and [now] is [datetime.utcnow().isoformat()]. *)
Definition initiate_payment (request : PaymentInitiationRequest)
    (uuid now : list N) : M store PaymentInitiationResponse :=
  let payment_id := uuid in
  modify (λ st,
    {| payments_store :=
         <[payment_id := {| pay_status := Py.lit "PENDING";
                            pay_amount := amount request;
                            pay_currency := currency request;
                            pay_reference := reference request;
                            pay_created_at := now |}]> (payments_store st);
       payouts_store := payouts_store st |}) ;;
  payments <- gets payments_store ;;
  match payments !! payment_id with
  | Some p =>
      ret {| init_payment_id := payment_id;
             init_status := Py.lit "PENDING";
             init_created_at := pay_created_at p |}
  | None => raise (KeyError payment_id)
  end.

Definition get_payment_status (payment_id : list N) (now : list N)
    : M store PaymentStatusResponse :=
  payments <- gets payments_store ;;
  match payments !! payment_id with
  | None => raise (HTTPException 404 (Py.lit "Payment not found"))
  | Some p =>
      ret {| st_payment_id := payment_id;
             st_status := pay_status p;
             st_processed_at :=
               if Py.eqb (pay_status p) (Py.lit "COMPLETED")
               then Some now else None;
             st_amount := pay_amount p;
             st_currency := pay_currency p;
             st_reference := pay_reference p |}
  end.

Record PayoutRequest : Type := {
  payee_name : list N;
  payee_bank_details : list N;
  payout_amount : float;
  payout_currency : list N;
  payout_reference : option (list N);
}.

Record PayoutResponse : Type := {
  resp_payout_id : list N;
  resp_status : list N;
  resp_sent_at : list N;
}.

Definition send_payout (request : PayoutRequest) (uuid now : list N)
    : M store PayoutResponse :=
  let payout_id := uuid in
  modify (λ st,
    {| payments_store := payments_store st;
       payouts_store :=
         <[payout_id := {| out_status := Py.lit "SENT";
                           out_amount := payout_amount request;
                           out_currency := payout_currency request;
                           out_sent_at := now |}]> (payouts_store st) |}) ;;
  payouts <- gets payouts_store ;;
  match payouts !! payout_id with
  | Some p =>
      ret {| resp_payout_id := payout_id;
             resp_status := Py.lit "SENT";
             resp_sent_at := out_sent_at p |}
  | None => raise (KeyError payout_id)
  end.

(** The two informational endpoints return constant JSON objects. *)
Definition health_check : list (string * list N) :=
  [("status", Py.lit "healthy");
   ("service", Py.lit "production-adk-agent")]%string.

Definition root : list (string * list N) :=
  [("service", Py.lit "Production ADK Agent - Lab 3");
   ("description", Py.lit "GPU-accelerated Gemma agent");
   ("docs", Py.lit "/docs");
   ("health", Py.lit "/health")]%string.

(** *** Request sequences *)

(** A request to one of the five routes, with what the environment
    supplies while it is served. *)
Inductive request : Type :=
| GetHealth
| GetRoot
| PostPaymentsInitiate (body : PaymentInitiationRequest) (uuid now : list N)
| GetPaymentStatus (payment_id now : list N)
| PostPayoutsSend (body : PayoutRequest) (uuid now : list N).

(** The stores after a request was served (also when it was answered with
    an error). *)
Definition handle (r : request) (st : store) : store :=
  match r with
  | GetHealth | GetRoot => st
  | PostPaymentsInitiate body uuid now =>
      snd (initiate_payment body uuid now st)
  | GetPaymentStatus payment_id now =>
      snd (get_payment_status payment_id now st)
  | PostPayoutsSend body uuid now => snd (send_payout body uuid now st)
  end.

Definition serve (rs : list request) (st : store) : store :=
  foldl (λ st r, handle r st) st rs.

(** The identifiers under which the requests filed a payment. *)
Definition initiated_ids (rs : list request) : list (list N) :=
  omap (λ r, match r with
             | PostPaymentsInitiate _ uuid _ => Some uuid
             | _ => None
             end) rs.

Definition sample_payout : PayoutRequest :=
  {| payee_name := Py.lit "Asha";
     payee_bank_details := Py.lit "IFSC0001";
     payout_amount := 25%float;
     payout_currency := Py.lit "INR";
     payout_reference := None |}.

End Server.

(** ** Trimming *)

Module PyFacts.
Import Py.

Lemma blank_nil : blank [].
Proof. constructor. Qed.

Lemma blank_cons c s : blank (c :: s) ↔ is_space c = true ∧ blank s.
Proof. apply (Forall_cons (λ x, is_space x = true)). Qed.

Lemma blank_reverse s : blank (reverse s) ↔ blank s.
Proof. apply Forall_reverse. Qed.

Lemma lstrip_nil s : lstrip s = [] ↔ blank s.
Proof.
  induction s as [|c s IH]; simpl.
  - split; [intros _; apply blank_nil | done].
  - rewrite blank_cons. destruct (is_space c) eqn:Hc.
    + rewrite IH. split; [by split | by intros [_ ?]].
    + split; [discriminate | intros [? _]; discriminate].
Qed.

(** Leading whitespace is all [lstrip] removes. *)
Lemma lstrip_split s : ∃ ws, blank ws ∧ s = ws ++ lstrip s.
Proof.
  induction s as [|c s (ws & Hws & Heq)]; simpl.
  - exists []. split; [apply blank_nil | done].
  - destruct (is_space c) eqn:Hc.
    + exists (c :: ws). split; [by apply blank_cons | by rewrite Heq at 1].
    + exists []. split; [apply blank_nil | done].
Qed.

Lemma blank_lstrip s : blank (lstrip s) ↔ blank s.
Proof.
  destruct (lstrip_split s) as (ws & Hws & Heq).
  rewrite Heq at 2. unfold blank in *. rewrite Forall_app.
  split; [by split | by intros [_ ?]].
Qed.

Lemma rstrip_nil s : rstrip s = [] ↔ blank s.
Proof.
  unfold rstrip. rewrite <- blank_reverse, <- lstrip_nil.
  split; intros H.
  - apply (f_equal reverse) in H. by rewrite reverse_involutive in H.
  - by rewrite H.
Qed.

(** Trimming leaves nothing exactly when the string is empty or made of
    whitespace only. *)
Lemma strip_nil s : strip s = [] ↔ blank s.
Proof. unfold strip. by rewrite rstrip_nil, blank_lstrip. Qed.

(** What [lstrip] leaves does not start with whitespace. *)
Lemma lstrip_head s c t : lstrip s = c :: t → is_space c = false.
Proof.
  induction s as [|c' s IH]; simpl; [done|].
  destruct (is_space c') eqn:Hc; [done|]. by intros [= <- _].
Qed.

Example strip_ascii : strip (lit "  a b 	 ") = lit "a b".
Proof. reflexivity. Qed.

Example strip_unicode :
  strip [0x3000; 0x41; 0xA0; 0x42; 0x85; 0x2003] = [0x41; 0xA0; 0x42].
Proof. reflexivity. Qed.

Example strip_whitespace_only : strip (lit " 	 ") = [].
Proof. reflexivity. Qed.

Lemma strip_eqb_nil s : negb (eqb (strip s) []) = true ↔ ¬ blank s.
Proof.
  unfold eqb. rewrite negb_true_iff, bool_decide_eq_false.
  by rewrite strip_nil.
Qed.

End PyFacts.

(** ** The configuration gate *)

Module AgentFacts.
Import Agent.

(** Unfolds the monad so that a call on a world computes. *)
Ltac run_py :=
  unfold create_agent,
    write_code_to_tool, write_to_tool, AgentGenerator_new, setitem, getitem,
    emit, bind, ret, raise, gets, modify,
    with_state_data, with_tool_module; simpl.

(** A setter is an assignment followed by a [print]. *)
Lemma setter_eq key v text w :
  bind (setitem key (VStr v)) (λ _, print text) w
  = (if Py.encodable text then Ok tt else Raise UnicodeEncodeError,
     {| state_data := <[key := VStr v]> (state_data w);
        tool_module := tool_module w;
        trace := trace w ++ printed text |}).
Proof.
  unfold print, printed. run_py.
  destruct (Py.encodable text); simpl; [done | by rewrite app_nil_r].
Qed.

Lemma encodable_app s t :
  Py.encodable (s ++ t) = Py.encodable s && Py.encodable t.
Proof. apply forallb_app. Qed.

Lemma set_org_name_eq v w :
  set_org_name v w
  = (if Py.encodable v then Ok tt else Raise UnicodeEncodeError,
     {| state_data := <["org_name" := VStr v]> (state_data w);
        tool_module := tool_module w;
        trace := trace w ++ printed (Py.lit "Organization name set to: " ++ v)
     |}).
Proof. unfold set_org_name. by rewrite setter_eq, encodable_app. Qed.

Lemma set_base_url_eq v w :
  set_base_url v w
  = (if Py.encodable v then Ok tt else Raise UnicodeEncodeError,
     {| state_data := <["base_url" := VStr v]> (state_data w);
        tool_module := tool_module w;
        trace := trace w ++ printed (Py.lit "Base URL set to: " ++ v) |}).
Proof. unfold set_base_url. by rewrite setter_eq, encodable_app. Qed.

Lemma set_swagger_json_eq v w :
  set_swagger_json v w
  = (Ok tt,
     {| state_data := <["swagger_json" := VStr v]> (state_data w);
        tool_module := tool_module w;
        trace := trace w ++ [EvPrint (Py.lit "Swagger JSON specification set.")]
     |}).
Proof. unfold set_swagger_json. by rewrite setter_eq. Qed.

Lemma elem_of_printed e text : e ∈ printed text → e = EvPrint text.
Proof.
  unfold printed. destruct (Py.encodable text).
  - by intros ?%list_elem_of_singleton.
  - by intros ?%elem_of_nil.
Qed.

Lemma field_set_iff d key :
  field_set d key = true ↔ nonempty_after_trim d key.
Proof.
  unfold field_set, nonempty_after_trim.
  destruct (d !! key) as [[|s|ag]|].
  - split; [done | by intros (? & ? & _)].
  - rewrite PyFacts.strip_eqb_nil, <- PyFacts.strip_nil. split.
    + intros H. by exists s.
    + by intros (s' & [= <-] & H).
  - split; [done | by intros (? & ? & _)].
  - split; [done | by intros (? & ? & _)].
Qed.

Lemma is_valid_iff d :
  forallb (field_set d) required_keys = true ↔ valid_configuration d.
Proof.
  unfold required_keys, valid_configuration. simpl.
  rewrite !andb_true_iff, !field_set_iff. tauto.
Qed.

Lemma is_valid_false_iff d :
  forallb (field_set d) required_keys = false ↔ ¬ valid_configuration d.
Proof. by rewrite <- is_valid_iff, not_true_iff_false. Qed.

Lemma blank_field_invalid d key :
  key ∈ required_keys → blank_field d key → ¬ valid_configuration d.
Proof.
  intros Hkey (s & Hs & Hblank) (Ho & Hb & Hj).
  assert (nonempty_after_trim d key) as (s' & Hs' & Hne).
  { unfold required_keys in Hkey.
    repeat (apply elem_of_cons in Hkey as [-> | Hkey]; [done|]).
    by apply elem_of_nil in Hkey. }
  rewrite Hs in Hs'. injection Hs' as <-.
  by apply Hne, PyFacts.strip_nil.
Qed.

Lemma create_agent_bound w v :
  state_data w !! "org_name" = Some v →
  create_agent w = (Ok {| agent_org_name := v |}, bound v w).
Proof.
  intros H. run_py. rewrite H. unfold bound. simpl.
  by rewrite <- app_assoc.
Qed.

Lemma create_agent_no_org_name w :
  state_data w !! "org_name" = None →
  create_agent w =
    (Raise (KeyError (Py.lit "org_name")),
     {| state_data := state_data w; tool_module := tool_module w;
        trace := trace w ++ [EvCreateAgent] |}).
Proof. intros H. run_py. by rewrite H. Qed.

Lemma validate_state_valid w :
  valid_configuration (state_data w) →
  ∃ s, state_data w !! "org_name" = Some (VStr s)
       ∧ validate_state w = (Ok true, bound (VStr s) w).
Proof.
  intros Hv. pose proof Hv as ((s & Hs & _) & _). exists s. split; [done|].
  apply is_valid_iff in Hv.
  unfold validate_state, bind at 1, gets. rewrite Hv.
  unfold bind. by rewrite (create_agent_bound _ _ Hs).
Qed.

Lemma validate_state_invalid w :
  ¬ valid_configuration (state_data w) → validate_state w = (Ok false, w).
Proof.
  intros Hv. apply is_valid_false_iff in Hv.
  unfold validate_state, bind, gets. by rewrite Hv.
Qed.

Lemma valid_configuration_dec d :
  valid_configuration d ∨ ¬ valid_configuration d.
Proof.
  destruct (forallb (field_set d) required_keys) eqn:H.
  - left. by apply is_valid_iff.
  - right. by apply is_valid_false_iff.
Qed.

(** C1. [validate_state] returns [True] exactly when each of [org_name],
    [base_url] and [swagger_json] holds a string that is non-empty after
    trimming, and [False] otherwise; in particular it returns [False] as
    soon as one of the three is empty or whitespace-only. *)
Theorem validate_state_iff_valid (w : world) :
  (fst (validate_state w) = Ok true ↔ valid_configuration (state_data w))
  ∧ (fst (validate_state w) = Ok false
     ↔ ¬ valid_configuration (state_data w))
  ∧ ((∃ key, key ∈ required_keys ∧ blank_field (state_data w) key) →
     fst (validate_state w) = Ok false).
Proof.
  destruct (valid_configuration_dec (state_data w)) as [Hv | Hv].
  - destruct (validate_state_valid w Hv) as (s & _ & ->). simpl.
    split; [done|]. split; [split; [discriminate | done]|].
    intros (key & Hkey & Hblank).
    by destruct (blank_field_invalid _ _ Hkey Hblank).
  - rewrite (validate_state_invalid w Hv). simpl.
    split; [split; [discriminate | done]|]. done.
Qed.

Lemma valid_configuration_bound v w :
  valid_configuration (state_data (bound v w))
  ↔ valid_configuration (state_data w).
Proof.
  unfold valid_configuration, nonempty_after_trim, bound. simpl.
  by rewrite !lookup_insert_ne.
Qed.

Lemma bound_bound v w :
  state_data (bound v (bound v w)) = state_data (bound v w)
  ∧ tool_module (bound v (bound v w)) = tool_module w.
Proof. unfold bound. simpl. by rewrite insert_insert_eq. Qed.

(** The design's second scenario: the specification was never set. *)
Example validate_state_without_swagger :
  validate_state
    (snd (set_base_url (Py.lit "https://api.acme.com") acme_only_world))
  = (Ok false,
     snd (set_base_url (Py.lit "https://api.acme.com") acme_only_world)).
Proof. reflexivity. Qed.

Example validate_state_whitespace_url :
  fst (validate_state
         (snd (configure (Py.lit "Acme") (Py.lit "  ") (Py.lit "{ }")
                 initial_world)))
  = Ok false.
Proof. reflexivity. Qed.

Example validate_state_acme :
  validate_state acme_world
  = (Ok true, bound (VStr (Py.lit "Acme")) acme_world).
Proof. by vm_compute. Qed.

(** C2, as the code has it. [validate_state] never touches the generated
    module, the three configuration slots or any slot other than ["agent"];
    a failed validation leaves the whole world as it was, and a successful
    one changes the dictionary only by binding ["agent"] to the new
    handle. *)
Theorem validate_state_frame (w : world) :
  tool_module (snd (validate_state w)) = tool_module w
  ∧ (∀ key, key ≠ "agent" →
       state_data (snd (validate_state w)) !! key = state_data w !! key)
  ∧ (fst (validate_state w) = Ok false → snd (validate_state w) = w)
  ∧ (fst (validate_state w) = Ok true →
     ∃ ag, state_data (snd (validate_state w))
           = <["agent" := VAgent ag]> (state_data w)).
Proof.
  destruct (valid_configuration_dec (state_data w)) as [Hv | Hv].
  - destruct (validate_state_valid w Hv) as (s & _ & ->). simpl.
    split; [done|]. split; [|split; [discriminate | by eexists]].
    intros key Hkey. by rewrite lookup_insert_ne.
  - rewrite (validate_state_invalid w Hv). simpl.
    repeat split; done.
Qed.

(** C2 fails as stated: validating a complete configuration adds the
    ["agent"] slot to the shared dictionary. *)
Lemma validate_state_changes_state_data :
  fst (validate_state acme_world) = Ok true
  ∧ state_data (snd (validate_state acme_world)) ≠ state_data acme_world.
Proof.
  split; [by vm_compute|].
  intros H. apply (f_equal (λ d : gmap string value, d !! "agent")) in H.
  vm_compute in H. discriminate.
Qed.

(** C3. Without an ["agent"] slot, [write_code_to_tool] raises the
    missing-handle error for every code text, the empty one included; the
    error reaches the caller and nothing is written. *)
Theorem write_code_to_tool_without_handle (w : world) (code : list N) :
  state_data w !! "agent" = None →
  write_code_to_tool code w = (Raise MissingHandleError, w).
Proof. intros H. run_py. by rewrite H. Qed.

Lemma write_code_to_tool_without_handle_witness :
  state_data initial_world !! "agent" = None
  ∧ write_code_to_tool [] initial_world
    = (Raise MissingHandleError, initial_world).
Proof.
  split; [reflexivity|].
  apply (write_code_to_tool_without_handle initial_world []). reflexivity.
Defined.

(** C4, as the code has it. [create_agent] does not look at validity: it
    fails only when the dictionary has no ["org_name"] slot, and otherwise
    returns the handle built from that slot and binds it under ["agent"]. *)
Theorem create_agent_unguarded (w : world) :
  match state_data w !! "org_name" with
  | Some v => create_agent w = (Ok {| agent_org_name := v |}, bound v w)
  | None =>
      fst (create_agent w) = Raise (KeyError (Py.lit "org_name"))
      ∧ state_data (snd (create_agent w)) = state_data w
  end.
Proof.
  destruct (state_data w !! "org_name") as [v|] eqn:H.
  - by apply create_agent_bound.
  - by rewrite (create_agent_no_org_name w H).
Qed.

(** C4 fails as stated: with only the organisation name collected the
    configuration is invalid, and [create_agent] still returns a handle. *)
Lemma create_agent_succeeds_when_invalid :
  ¬ valid_configuration (state_data acme_only_world)
  ∧ fst (validate_state acme_only_world) = Ok false
  ∧ fst (create_agent acme_only_world)
    = Ok {| agent_org_name := VStr (Py.lit "Acme") |}.
Proof.
  split; [|split; by vm_compute].
  apply is_valid_false_iff. by vm_compute.
Qed.

(** C5. A validation that returns [False] performs no action at all: the
    trace gains no event (so neither [create_agent], nor the constructor,
    nor the writer was entered), no handle is bound and the generated
    module is untouched. *)
Theorem validate_state_false_inert (w w' : world) :
  validate_state w = (Ok false, w') →
  trace w' = trace w
  ∧ state_data w' = state_data w
  ∧ tool_module w' = tool_module w.
Proof.
  intros H. destruct (valid_configuration_dec (state_data w)) as [Hv | Hv].
  - destruct (validate_state_valid w Hv) as (s & _ & Heq).
    rewrite Heq in H. discriminate.
  - rewrite (validate_state_invalid w Hv) in H. by injection H as <-.
Qed.

Lemma validate_state_false_inert_witness :
  validate_state acme_only_world = (Ok false, acme_only_world)
  ∧ trace acme_only_world = trace acme_only_world
  ∧ state_data acme_only_world = state_data acme_only_world
  ∧ tool_module acme_only_world = tool_module acme_only_world.
Proof.
  split; [reflexivity|].
  apply (validate_state_false_inert acme_only_world acme_only_world).
  reflexivity.
Defined.

(** C6. Validating a valid configuration twice in a row: both calls return
    [True], neither appends a fragment, and the second leaves the module
    and the dictionary exactly as the first left them; whatever manifest is
    read off the persisted module is therefore the same. *)
Theorem validate_state_twice (w : world) :
  valid_configuration (state_data w) →
  ∃ w1 w2,
    validate_state w = (Ok true, w1)
    ∧ validate_state w1 = (Ok true, w2)
    ∧ tool_module w1 = tool_module w
    ∧ tool_module w2 = tool_module w1
    ∧ state_data w2 = state_data w1
    ∧ ∀ manifest_of : list (list N) → list (list N),
        manifest_of (tool_module w2) = manifest_of (tool_module w1).
Proof.
  intros Hv.
  destruct (validate_state_valid w Hv) as (s & Hs & H1).
  assert (valid_configuration (state_data (bound (VStr s) w))) as Hv1
    by by apply valid_configuration_bound.
  destruct (validate_state_valid _ Hv1) as (s' & Hs' & H2).
  assert (s' = s) as ->.
  { unfold bound in Hs'. simpl in Hs'.
    rewrite lookup_insert_ne in Hs' by done. congruence. }
  destruct (bound_bound (VStr s) w) as [Hd Hm].
  exists (bound (VStr s) w), (bound (VStr s) (bound (VStr s) w)).
  by repeat split.
Qed.

Lemma validate_state_twice_witness :
  valid_configuration (state_data acme_world)
  ∧ ∃ w1 w2,
      validate_state acme_world = (Ok true, w1)
      ∧ validate_state w1 = (Ok true, w2)
      ∧ tool_module w1 = tool_module acme_world
      ∧ tool_module w2 = tool_module w1
      ∧ state_data w2 = state_data w1
      ∧ ∀ manifest_of : list (list N) → list (list N),
          manifest_of (tool_module w2) = manifest_of (tool_module w1).
Proof.
  assert (valid_configuration (state_data acme_world)) as Hv.
  { apply is_valid_iff. vm_compute. reflexivity. }
  split; [exact Hv|]. exact (validate_state_twice acme_world Hv).
Defined.




(** C10. When [validate_state] returns [True] the dictionary it leaves
    holds a handle under ["agent"]; a [write_code_to_tool] issued next goes
    to that handle and returns, so it does not raise the missing-handle
    error. *)
Theorem validate_state_true_binds_agent (w w' : world) :
  validate_state w = (Ok true, w') →
  ∃ ag,
    state_data w' !! "agent" = Some (VAgent ag)
    ∧ ∀ code,
        write_code_to_tool code w' = write_to_tool ag code w'
        ∧ fst (write_code_to_tool code w') = Ok tt
        ∧ tool_module (snd (write_code_to_tool code w'))
          = tool_module w' ++ [code].
Proof.
  intros H. destruct (valid_configuration_dec (state_data w)) as [Hv | Hv].
  - destruct (validate_state_valid w Hv) as (s & _ & Heq).
    rewrite Heq in H. injection H as <-.
    exists {| agent_org_name := VStr s |}.
    split; [apply lookup_insert_eq|].
    intros code. run_py. by rewrite lookup_insert_eq.
  - rewrite (validate_state_invalid w Hv) in H. discriminate.
Qed.

Lemma validate_state_true_binds_agent_witness :
  validate_state acme_world
    = (Ok true, bound (VStr (Py.lit "Acme")) acme_world)
  ∧ ∃ ag,
      state_data (bound (VStr (Py.lit "Acme")) acme_world) !! "agent"
        = Some (VAgent ag)
      ∧ ∀ code,
          write_code_to_tool code (bound (VStr (Py.lit "Acme")) acme_world)
            = write_to_tool ag code (bound (VStr (Py.lit "Acme")) acme_world)
          ∧ fst (write_code_to_tool code
                   (bound (VStr (Py.lit "Acme")) acme_world)) = Ok tt
          ∧ tool_module
              (snd (write_code_to_tool code
                      (bound (VStr (Py.lit "Acme")) acme_world)))
            = tool_module (bound (VStr (Py.lit "Acme")) acme_world)
              ++ [code].
Proof.
  assert (validate_state acme_world
          = (Ok true, bound (VStr (Py.lit "Acme")) acme_world)) as H
    by (vm_compute; reflexivity).
  split; [exact H|].
  exact (validate_state_true_binds_agent acme_world _ H).
Defined.

(** *** Sessions: no handle before [create_agent] *)

Lemma run_snoc cs c w : run (cs ++ [c]) w = snd (step c (run cs w)).
Proof. unfold run. by rewrite foldl_app. Qed.

Lemma write_code_to_tool_cases code w :
  (state_data w !! "agent" = None ∧ snd (write_code_to_tool code w) = w)
  ∨ (∃ v, state_data w !! "agent" = Some v
          ∧ state_data (snd (write_code_to_tool code w)) = state_data w
          ∧ ∃ evs,
              trace (snd (write_code_to_tool code w)) = trace w ++ evs).
Proof.
  run_py. destruct (state_data w !! "agent") as [[|s|ag]|] eqn:H; simpl.
  - right. eexists. split; [done|]. split; [done|].
    exists []. by rewrite app_nil_r.
  - right. eexists. split; [done|]. split; [done|].
    exists []. by rewrite app_nil_r.
  - right. eexists. split; [done|]. split; [done|]. by eexists.
  - by left.
Qed.

(** The world a call leaves is the one its function leaves. *)
Lemma step_world c w :
  snd (step c w)
  = match c with
    | CallSetOrgName v => snd (set_org_name v w)
    | CallSetBaseUrl v => snd (set_base_url v w)
    | CallSetSwaggerJson v => snd (set_swagger_json v w)
    | CallValidateState => snd (validate_state w)
    | CallCreateAgent => snd (create_agent w)
    | CallWriteCodeToTool code => snd (write_code_to_tool code w)
    end.
Proof.
  destruct c; simpl.
  - by destruct (set_org_name org_name w).
  - by destruct (set_base_url base_url w).
  - by destruct (set_swagger_json swagger_json w).
  - by destruct (validate_state w).
  - by destruct (create_agent w).
  - by destruct (write_code_to_tool code w).
Qed.

(** One call only ever extends the trace. *)
Lemma step_trace c w : ∃ evs, trace (snd (step c w)) = trace w ++ evs.
Proof.
  rewrite step_world. destruct c.
  - rewrite set_org_name_eq. by eexists.
  - rewrite set_base_url_eq. by eexists.
  - rewrite set_swagger_json_eq. by eexists.
  - destruct (valid_configuration_dec (state_data w)) as [Hv | Hv].
    + destruct (validate_state_valid w Hv) as (s & _ & ->). by eexists.
    + rewrite (validate_state_invalid w Hv). exists []. by rewrite app_nil_r.
  - destruct (state_data w !! "org_name") as [v|] eqn:H.
    + rewrite (create_agent_bound w v H). by eexists.
    + rewrite (create_agent_no_org_name w H). by eexists.
  - destruct (write_code_to_tool code w) as [r w'] eqn:Heq.
    destruct (write_code_to_tool_cases code w) as [[_ Hw] | (v & _ & _ & Hw)];
      rewrite Heq in Hw; simpl in *.
    + subst w'. exists []. by rewrite app_nil_r.
    + done.
Qed.

(** A call that does not enter [create_agent] binds no handle. *)
Lemma step_keeps_unbound c w :
  no_create_agent_yet (snd (step c w)) →
  state_data w !! "agent" = None →
  state_data (snd (step c w)) !! "agent" = None.
Proof.
  unfold no_create_agent_yet. rewrite step_world. intros Hno Hw. destruct c.
  - rewrite set_org_name_eq. simpl. by rewrite lookup_insert_ne.
  - rewrite set_base_url_eq. simpl. by rewrite lookup_insert_ne.
  - rewrite set_swagger_json_eq. simpl. by rewrite lookup_insert_ne.
  - destruct (valid_configuration_dec (state_data w)) as [Hv | Hv].
    + destruct (validate_state_valid w Hv) as (s & _ & Heq).
      rewrite Heq in Hno. simpl in Hno. destruct Hno.
      apply elem_of_app. right. by left.
    + by rewrite (validate_state_invalid w Hv).
  - destruct (state_data w !! "org_name") as [v|] eqn:H.
    + rewrite (create_agent_bound w v H) in Hno. simpl in Hno.
      destruct Hno. apply elem_of_app. right. by left.
    + rewrite (create_agent_no_org_name w H) in Hno. simpl in Hno.
      destruct Hno. apply elem_of_app. right. by left.
  - destruct (write_code_to_tool code w) as [r w'] eqn:Heq.
    destruct (write_code_to_tool_cases code w) as [[_ Hw'] | (v & Hv & _)];
      rewrite ?Heq in *; simpl in *; [by subst w' | congruence].
Qed.

Lemma agent_unbound_before_create_agent cs :
  no_create_agent_yet (run cs initial_world) →
  state_data (run cs initial_world) !! "agent" = None.
Proof.
  induction cs as [|c cs IH] using rev_ind; [done|].
  rewrite run_snoc. intros Hno. apply step_keeps_unbound; [done|].
  apply IH. unfold no_create_agent_yet in *.
  destruct (step_trace c (run cs initial_world)) as [evs Hevs].
  rewrite Hevs in Hno. intros Hin. apply Hno, elem_of_app. by left.
Qed.

(** In a session started on import, whatever was called so far, a
    [write_code_to_tool] issued before [create_agent] was ever entered
    raises the missing-handle error. *)
Theorem write_before_create_agent cs code :
  no_create_agent_yet (run cs initial_world) →
  write_code_to_tool code (run cs initial_world)
  = (Raise MissingHandleError, run cs initial_world).
Proof.
  intros Hno. apply agent_unbound_before_create_agent in Hno.
  run_py. by rewrite Hno.
Qed.

End AgentFacts.

(** ** Sessions of tool calls *)

Module AgentSessionFacts.
Import Agent AgentFacts.

Lemma required_key_not_agent key : key ∈ required_keys → key ≠ "agent".
Proof.
  unfold required_keys. intros Hkey ->.
  repeat (apply elem_of_cons in Hkey as [Hkey | Hkey]; [discriminate|]).
  by apply elem_of_nil in Hkey.
Qed.

Lemma validate_state_result w :
  fst (validate_state w)
  = Ok (forallb (field_set (state_data w)) required_keys).
Proof.
  destruct (valid_configuration_dec (state_data w)) as [Hv | Hv].
  - destruct (validate_state_valid w Hv) as (s & _ & ->).
    apply is_valid_iff in Hv. by rewrite Hv.
  - rewrite (validate_state_invalid w Hv).
    apply is_valid_false_iff in Hv. by rewrite Hv.
Qed.

Lemma field_set_insert d key v k :
  field_set (<[key := VStr v]> d) k
  = if decide (key = k) then negb (Py.eqb (Py.strip v) []) else field_set d k.
Proof.
  unfold field_set. destruct (decide (key = k)) as [-> | Hne].
  - by rewrite lookup_insert_eq.
  - by rewrite lookup_insert_ne.
Qed.

Lemma blank_padding ws1 s ws2 :
  Py.blank ws1 → Py.blank ws2 → Py.blank (ws1 ++ s ++ ws2) ↔ Py.blank s.
Proof.
  unfold Py.blank. intros H1 H2. rewrite !Forall_app.
  split; [by intros (_ & ? & _) | by intros ?].
Qed.

Lemma nonblank_padding ws1 s ws2 :
  Py.blank ws1 → Py.blank ws2 →
  negb (Py.eqb (Py.strip (ws1 ++ s ++ ws2)) [])
  = negb (Py.eqb (Py.strip s) []).
Proof.
  intros H1 H2. apply eq_true_iff_eq.
  by rewrite !PyFacts.strip_eqb_nil, blank_padding.
Qed.

Lemma is_valid_padding d key ws1 s ws2 :
  Py.blank ws1 → Py.blank ws2 →
  forallb (field_set (<[key := VStr (ws1 ++ s ++ ws2)]> d)) required_keys
  = forallb (field_set (<[key := VStr s]> d)) required_keys.
Proof.
  intros H1 H2. unfold required_keys. simpl.
  rewrite !field_set_insert, !nonblank_padding by done. done.
Qed.

(** What one call can do to the dictionary: nothing, store a string in one
    of the three configuration slots, or bind a handle built from the
    current organisation name. *)
Lemma step_state_data c w :
  state_data (snd (step c w)) = state_data w
  ∨ (∃ key s,
       key ∈ required_keys
       ∧ state_data (snd (step c w)) = <[key := VStr s]> (state_data w))
  ∨ (∃ v,
       state_data w !! "org_name" = Some v ∧ snd (step c w) = bound v w).
Proof.
  rewrite step_world. destruct c.
  - right; left. exists "org_name", org_name.
    split; [set_solver | by rewrite set_org_name_eq].
  - right; left. exists "base_url", base_url.
    split; [set_solver | by rewrite set_base_url_eq].
  - right; left. exists "swagger_json", swagger_json.
    split; [set_solver | by rewrite set_swagger_json_eq].
  - destruct (valid_configuration_dec (state_data w)) as [Hv | Hv].
    + destruct (validate_state_valid w Hv) as (s & Hs & ->).
      right; right. by exists (VStr s).
    + rewrite (validate_state_invalid w Hv). by left.
  - destruct (state_data w !! "org_name") as [v|] eqn:H.
    + rewrite (create_agent_bound w v H). right; right. by exists v.
    + rewrite (create_agent_no_org_name w H). by left.
  - left. destruct (write_code_to_tool code w) as [r w'] eqn:Heq.
    destruct (write_code_to_tool_cases code w) as [[_ Hw] | (v & _ & Hw & _)];
      rewrite Heq in Hw; simpl in *; [by subst w' | done].
Qed.

Lemma step_fields_are_strings c w :
  fields_are_strings (state_data w) →
  fields_are_strings (state_data (snd (step c w))).
Proof.
  intros Hf key Hkey.
  destruct (step_state_data c w) as [-> | [(k & s & Hk & ->) | (v & _ & ->)]].
  - by apply Hf.
  - destruct (decide (k = key)) as [-> | Hne].
    + exists s. apply lookup_insert_eq.
    + rewrite lookup_insert_ne by done. by apply Hf.
  - unfold bound. simpl. rewrite lookup_insert_ne; [by apply Hf|].
    intros Heq. by apply (required_key_not_agent key).
Qed.

Lemma step_handle_bound c w :
  handle_bound (state_data w) → handle_bound (state_data (snd (step c w))).
Proof.
  intros (ag & Hag). unfold handle_bound.
  destruct (step_state_data c w) as [-> | [(k & s & Hk & ->) | (v & _ & ->)]].
  - by exists ag.
  - exists ag. rewrite lookup_insert_ne; [done|].
    by apply required_key_not_agent.
  - eexists. unfold bound. simpl. apply lookup_insert_eq.
Qed.

Lemma run_fields_are_strings cs :
  fields_are_strings (state_data (run cs initial_world)).
Proof.
  induction cs as [|c cs IH] using rev_ind.
  - intros key Hkey. unfold required_keys in Hkey.
    repeat (apply elem_of_cons in Hkey as [-> | Hkey]; [by exists []|]).
    by apply elem_of_nil in Hkey.
  - rewrite run_snoc. by apply step_fields_are_strings.
Qed.

(** A call whose events include an entry into [create_agent] leaves a handle
    bound, as long as the organisation name slot exists. *)
Lemma step_create_agent_event c w :
  fields_are_strings (state_data w) →
  EvCreateAgent ∈ trace (snd (step c w)) →
  EvCreateAgent ∈ trace w ∨ handle_bound (state_data (snd (step c w))).
Proof.
  intros Hf. destruct (Hf "org_name") as (o & Ho); [set_solver|].
  unfold handle_bound. rewrite step_world. destruct c.
  - rewrite set_org_name_eq. simpl.
    intros [? | Hin%elem_of_printed]%elem_of_app; [by left | discriminate].
  - rewrite set_base_url_eq. simpl.
    intros [? | Hin%elem_of_printed]%elem_of_app; [by left | discriminate].
  - rewrite set_swagger_json_eq. simpl.
    intros [? | Hin%list_elem_of_singleton]%elem_of_app;
      [by left | discriminate].
  - destruct (valid_configuration_dec (state_data w)) as [Hv | Hv].
    + destruct (validate_state_valid w Hv) as (s & _ & ->). intros _. right.
      eexists. unfold bound. simpl. apply lookup_insert_eq.
    + rewrite (validate_state_invalid w Hv). by left.
  - rewrite (create_agent_bound w _ Ho). intros _. right.
    eexists. unfold bound. simpl. apply lookup_insert_eq.
  - run_py. destruct (state_data w !! "agent") as [[|s|ag]|]; simpl;
      try by left.
    intros [? | Hin%list_elem_of_singleton]%elem_of_app;
      [by left | discriminate].
Qed.

Lemma state_data_set_org_name v w :
  state_data (snd (set_org_name v w)) = <["org_name" := VStr v]> (state_data w).
Proof. by rewrite set_org_name_eq. Qed.

Lemma state_data_set_base_url v w :
  state_data (snd (set_base_url v w)) = <["base_url" := VStr v]> (state_data w).
Proof. by rewrite set_base_url_eq. Qed.

Lemma state_data_set_swagger_json v w :
  state_data (snd (set_swagger_json v w))
  = <["swagger_json" := VStr v]> (state_data w).
Proof. by rewrite set_swagger_json_eq. Qed.

Lemma blank_eqb_false s :
  negb (Py.eqb (Py.strip s) []) = false ↔ Py.blank s.
Proof.
  unfold Py.eqb. rewrite negb_false_iff, bool_decide_eq_true.
  apply PyFacts.strip_nil.
Qed.

(** Whitespace around a value does not change the verdict: validating after
    a setter was given [ws1 ++ s ++ ws2], with [ws1] and [ws2] whitespace,
    answers as it does after the setter was given [s]. *)
Theorem validate_state_ignores_padding (ws1 s ws2 : list N) (w : world) :
  Py.blank ws1 → Py.blank ws2 →
  fst (validate_state (snd (set_org_name (ws1 ++ s ++ ws2) w)))
  = fst (validate_state (snd (set_org_name s w)))
  ∧ fst (validate_state (snd (set_base_url (ws1 ++ s ++ ws2) w)))
    = fst (validate_state (snd (set_base_url s w)))
  ∧ fst (validate_state (snd (set_swagger_json (ws1 ++ s ++ ws2) w)))
    = fst (validate_state (snd (set_swagger_json s w))).
Proof.
  intros H1 H2. rewrite !validate_state_result.
  rewrite !state_data_set_org_name, !state_data_set_base_url,
    !state_data_set_swagger_json.
  by rewrite !is_valid_padding.
Qed.

Lemma validate_state_ignores_padding_witness :
  Py.blank (Py.lit "  ") ∧ Py.blank (Py.lit " ")
  ∧ fst (validate_state
           (snd (set_org_name (Py.lit "  " ++ Py.lit "Acme" ++ Py.lit " ")
                   acme_world)))
    = fst (validate_state (snd (set_org_name (Py.lit "Acme") acme_world))).
Proof.
  assert (Py.blank (Py.lit "  ")) as H1 by (repeat constructor).
  assert (Py.blank (Py.lit " ")) as H2 by (repeat constructor).
  split; [exact H1|]. split; [exact H2|].
  exact (proj1 (validate_state_ignores_padding
                  (Py.lit "  ") (Py.lit "Acme") (Py.lit " ") acme_world
                  H1 H2)).
Defined.

(** Collecting the three values and validating: on any world, the answer is
    [True] exactly when none of the three values is empty or whitespace-only,
    and [False] exactly when one of them is; the call never raises. *)
Theorem validate_state_after_configure (a b c : list N) (w : world) :
  (fst (validate_state (snd (configure a b c w))) = Ok true
   ↔ ¬ Py.blank a ∧ ¬ Py.blank b ∧ ¬ Py.blank c)
  ∧ (fst (validate_state (snd (configure a b c w))) = Ok false
     ↔ Py.blank a ∨ Py.blank b ∨ Py.blank c).
Proof.
  rewrite validate_state_result.
  assert (state_data (snd (configure a b c w))
          = <["swagger_json" := VStr c]> (<["base_url" := VStr b]>
              (<["org_name" := VStr a]> (state_data w)))) as ->
    by (unfold configure;
        by rewrite state_data_set_swagger_json, state_data_set_base_url,
             state_data_set_org_name).
  unfold required_keys. cbn [forallb].
  rewrite !field_set_insert. repeat (case_decide; try done).
  pose proof (PyFacts.strip_eqb_nil a) as Ha.
  pose proof (PyFacts.strip_eqb_nil b) as Hb.
  pose proof (PyFacts.strip_eqb_nil c) as Hc.
  pose proof (blank_eqb_false a) as Ha'.
  pose proof (blank_eqb_false b) as Hb'.
  pose proof (blank_eqb_false c) as Hc'.
  destruct (negb (Py.eqb (Py.strip a) [])),
    (negb (Py.eqb (Py.strip b) [])), (negb (Py.eqb (Py.strip c) []));
    simpl; intuition discriminate.
Qed.

(** The check trims, the hand-over does not: a successful validation enters
    [create_agent] once and calls the [AgentGenerator] constructor once, with
    the organisation name exactly as stored, and the stored name stays as it
    was. *)
Theorem validate_state_passes_stored_org_name (w : world) (s : list N) :
  valid_configuration (state_data w) →
  state_data w !! "org_name" = Some (VStr s) →
  trace (snd (validate_state w))
  = trace w ++ [EvCreateAgent; EvAgentGenerator (VStr s)]
  ∧ state_data (snd (validate_state w)) !! "org_name" = Some (VStr s).
Proof.
  intros Hv Hs. destruct (validate_state_valid w Hv) as (s' & Hs' & ->).
  assert (s' = s) as -> by congruence.
  split; [done|]. unfold bound. simpl. by rewrite lookup_insert_ne.
Qed.

Lemma validate_state_passes_stored_org_name_witness :
  valid_configuration
    (state_data (snd (set_org_name (Py.lit "  Acme ") acme_world)))
  ∧ trace (snd (validate_state
                  (snd (set_org_name (Py.lit "  Acme ") acme_world))))
    = trace (snd (set_org_name (Py.lit "  Acme ") acme_world))
      ++ [EvCreateAgent; EvAgentGenerator (VStr (Py.lit "  Acme "))]
  ∧ state_data
      (snd (validate_state
              (snd (set_org_name (Py.lit "  Acme ") acme_world))))
    !! "org_name" = Some (VStr (Py.lit "  Acme ")).
Proof.
  assert (valid_configuration
            (state_data (snd (set_org_name (Py.lit "  Acme ") acme_world))))
    as Hv.
  { apply is_valid_iff. vm_compute. reflexivity. }
  split; [exact Hv|].
  apply (validate_state_passes_stored_org_name
           (snd (set_org_name (Py.lit "  Acme ") acme_world))
           (Py.lit "  Acme ") Hv).
  reflexivity.
Defined.

(** The setters can be called in any order: two setters of different slots
    leave the same dictionary whichever goes first. *)
Theorem setters_commute (a b c : list N) (w : world) :
  state_data (snd (set_base_url b (snd (set_org_name a w))))
  = state_data (snd (set_org_name a (snd (set_base_url b w))))
  ∧ state_data (snd (set_swagger_json c (snd (set_org_name a w))))
    = state_data (snd (set_org_name a (snd (set_swagger_json c w))))
  ∧ state_data (snd (set_swagger_json c (snd (set_base_url b w))))
    = state_data (snd (set_base_url b (snd (set_swagger_json c w)))).
Proof.
  rewrite !state_data_set_org_name, !state_data_set_base_url,
    !state_data_set_swagger_json, !state_data_set_org_name,
    !state_data_set_base_url.
  split; [|split]; by apply insert_insert_ne.
Qed.

(** Nothing ever removes or retypes a configuration slot: after any sequence
    of calls made since import, the three slots still hold strings, so
    [create_agent] finds the organisation name and returns a handle. *)
Theorem create_agent_succeeds_in_session (cs : list call) :
  fields_are_strings (state_data (run cs initial_world))
  ∧ ∃ s, state_data (run cs initial_world) !! "org_name" = Some (VStr s)
         ∧ fst (create_agent (run cs initial_world))
           = Ok {| agent_org_name := VStr s |}.
Proof.
  pose proof (run_fields_are_strings cs) as Hf. split; [done|].
  destruct (Hf "org_name") as (s & Hs); [set_solver|].
  exists s. split; [done|]. by rewrite (create_agent_bound _ _ Hs).
Qed.

(** In a session started on import a handle is bound exactly when
    [create_agent] was entered at some point, directly or through a
    successful validation; until then the ["agent"] slot does not exist. *)
Theorem handle_bound_iff_create_agent_entered (cs : list call) :
  (handle_bound (state_data (run cs initial_world))
   ↔ EvCreateAgent ∈ trace (run cs initial_world))
  ∧ (state_data (run cs initial_world) !! "agent" = None
     ↔ no_create_agent_yet (run cs initial_world)).
Proof.
  assert (handle_bound (state_data (run cs initial_world))
          ↔ EvCreateAgent ∈ trace (run cs initial_world)) as Hiff.
  { induction cs as [|c cs IH] using rev_ind.
    - split; [by intros (ag & Hag) | by intros Hin%elem_of_nil].
    - rewrite run_snoc. set (w := run cs initial_world) in *.
      destruct (step_trace c w) as [evs Hevs]. split.
      + intros (ag & Hag).
        destruct (step_state_data c w)
          as [Heq | [(k & s & Hk & Heq) | (v & _ & Heq)]].
        * rewrite Hevs. apply elem_of_app. left. apply IH.
          exists ag. by rewrite <- Heq.
        * rewrite Hevs. apply elem_of_app. left. apply IH.
          exists ag. rewrite Heq, lookup_insert_ne in Hag; [done|].
          by apply required_key_not_agent.
        * rewrite Heq. unfold bound. simpl.
          apply elem_of_app. right. by left.
      + intros Hin.
        destruct (step_create_agent_event c w (run_fields_are_strings cs) Hin)
          as [Hw | Hb]; [|done].
        by apply step_handle_bound, IH. }
  split; [done|]. split.
  - intros Hnone Hin. apply Hiff in Hin as (ag & Hag). congruence.
  - apply agent_unbound_before_create_agent.
Qed.

(** No call unbinds the handle: once the ["agent"] slot holds one, it holds
    one after any further sequence of calls. *)
Theorem handle_stays_bound (cs : list call) (w : world) :
  handle_bound (state_data w) → handle_bound (state_data (run cs w)).
Proof.
  revert w. induction cs as [|c cs IH]; intros w Hb; [done|].
  simpl. by apply IH, step_handle_bound.
Qed.

Lemma handle_stays_bound_witness :
  handle_bound (state_data (bound (VStr (Py.lit "Acme")) acme_world))
  ∧ handle_bound
      (state_data
         (run [CallSetSwaggerJson []; CallValidateState;
               CallWriteCodeToTool (Py.lit "x = 1")]
            (bound (VStr (Py.lit "Acme")) acme_world))).
Proof.
  assert (handle_bound (state_data (bound (VStr (Py.lit "Acme")) acme_world)))
    as Hb by (eexists; reflexivity).
  split; [exact Hb|]. exact (handle_stays_bound _ _ Hb).
Defined.

(** Writing is not gated again: after a successful validation, blanking the
    specification makes the next validation fail, and a
    [write_code_to_tool] issued then still goes through the handle bound
    earlier and appends its fragment. *)
Theorem write_code_to_tool_after_invalidation
    (w w1 : world) (v code : list N) :
  validate_state w = (Ok true, w1) →
  Py.blank v →
  fst (validate_state (snd (set_swagger_json v w1))) = Ok false
  ∧ fst (write_code_to_tool code (snd (set_swagger_json v w1))) = Ok tt
  ∧ tool_module (snd (write_code_to_tool code (snd (set_swagger_json v w1))))
    = tool_module w1 ++ [code].
Proof.
  intros Hval Hblank. split.
  - rewrite validate_state_result, state_data_set_swagger_json.
    unfold required_keys. cbn [forallb]. rewrite !field_set_insert.
    repeat (case_decide; try done).
    apply blank_eqb_false in Hblank. rewrite Hblank.
    by rewrite !andb_false_r.
  - destruct (valid_configuration_dec (state_data w)) as [Hv | Hv].
    + destruct (validate_state_valid w Hv) as (s & _ & Heq).
      rewrite Heq in Hval. injection Hval as <-.
      rewrite set_swagger_json_eq. run_py.
      rewrite lookup_insert_ne by done. by rewrite lookup_insert_eq.
    + rewrite (validate_state_invalid w Hv) in Hval. discriminate.
Qed.

Lemma write_code_to_tool_after_invalidation_witness :
  validate_state acme_world
  = (Ok true, bound (VStr (Py.lit "Acme")) acme_world)
  ∧ Py.blank (Py.lit " ")
  ∧ fst (validate_state
           (snd (set_swagger_json (Py.lit " ")
                   (bound (VStr (Py.lit "Acme")) acme_world))))
    = Ok false
  ∧ fst (write_code_to_tool (Py.lit "x = 1")
           (snd (set_swagger_json (Py.lit " ")
                   (bound (VStr (Py.lit "Acme")) acme_world))))
    = Ok tt
  ∧ tool_module
      (snd (write_code_to_tool (Py.lit "x = 1")
              (snd (set_swagger_json (Py.lit " ")
                      (bound (VStr (Py.lit "Acme")) acme_world)))))
    = tool_module (bound (VStr (Py.lit "Acme")) acme_world)
      ++ [Py.lit "x = 1"].
Proof.
  assert (validate_state acme_world
          = (Ok true, bound (VStr (Py.lit "Acme")) acme_world)) as H
    by (vm_compute; reflexivity).
  assert (Py.blank (Py.lit " ")) as Hb by (repeat constructor).
  split; [exact H|]. split; [exact Hb|].
  exact (write_code_to_tool_after_invalidation acme_world _ (Py.lit " ")
           (Py.lit "x = 1") H Hb).
Defined.

Lemma root_agent_step c w :
  root_agent_tool c = true →
  tool_module (snd (step c w)) = tool_module w
  ∧ ∀ code, EvWriteToTool code ∈ trace (snd (step c w)) →
            EvWriteToTool code ∈ trace w.
Proof.
  intros Hc. rewrite step_world. destruct c; try discriminate.
  - rewrite set_org_name_eq. simpl. split; [done|].
    intros code [? | Hin%elem_of_printed]%elem_of_app; [done | discriminate].
  - rewrite set_base_url_eq. simpl. split; [done|].
    intros code [? | Hin%elem_of_printed]%elem_of_app; [done | discriminate].
  - rewrite set_swagger_json_eq. simpl. split; [done|].
    intros code [? | Hin%list_elem_of_singleton]%elem_of_app;
      [done | discriminate].
  - destruct (valid_configuration_dec (state_data w)) as [Hv | Hv].
    + destruct (validate_state_valid w Hv) as (s & _ & ->).
      split; [done|]. unfold bound. simpl.
      intros code [? | Hin]%elem_of_app; [done|].
      apply elem_of_cons in Hin as [? | Hin]; [discriminate|].
      apply list_elem_of_singleton in Hin. discriminate.
    + by rewrite (validate_state_invalid w Hv).
Qed.

(** With the tools the orchestrator is given (the three setters and
    [validate_state]) no code is ever written: whatever it calls, the
    generated module keeps its fragments and [write_to_tool] is not entered. *)
Theorem root_agent_never_writes (cs : list call) (w : world) :
  Forall (λ c, root_agent_tool c = true) cs →
  tool_module (run cs w) = tool_module w
  ∧ ∀ code, EvWriteToTool code ∈ trace (run cs w) →
            EvWriteToTool code ∈ trace w.
Proof.
  intros Hcs. revert w. induction Hcs as [|c cs Hc _ IH]; intros w; [done|].
  simpl. destruct (IH (snd (step c w))) as [Hm Ht].
  destruct (root_agent_step c w Hc) as [Hm' Ht'].
  split; [congruence|]. intros code Hin. by apply Ht', Ht.
Qed.

Lemma root_agent_never_writes_witness :
  Forall (λ c, root_agent_tool c = true)
    [CallSetOrgName (Py.lit "Acme"); CallSetBaseUrl (Py.lit "https://a.io");
     CallSetSwaggerJson (Py.lit "{ }"); CallValidateState; CallValidateState]
  ∧ tool_module
      (run [CallSetOrgName (Py.lit "Acme");
            CallSetBaseUrl (Py.lit "https://a.io");
            CallSetSwaggerJson (Py.lit "{ }"); CallValidateState;
            CallValidateState] initial_world)
    = tool_module initial_world.
Proof.
  assert (Forall (λ c, root_agent_tool c = true)
            [CallSetOrgName (Py.lit "Acme");
             CallSetBaseUrl (Py.lit "https://a.io");
             CallSetSwaggerJson (Py.lit "{ }"); CallValidateState;
             CallValidateState]) as H by (repeat constructor).
  split; [exact H|].
  exact (proj1 (root_agent_never_writes _ initial_world H)).
Defined.

(** When the ["agent"] slot holds something that is not a handle,
    [write_code_to_tool] raises [AttributeError] and writes nothing. *)
Theorem write_code_to_tool_not_a_handle (w : world) (v : value)
    (code : list N) :
  state_data w !! "agent" = Some v →
  (∀ ag, v ≠ VAgent ag) →
  write_code_to_tool code w = (Raise (AttributeError "write_to_tool"), w).
Proof.
  intros Hv Hna. run_py. rewrite Hv. destruct v as [|s|ag]; try done.
  by destruct (Hna ag).
Qed.

Lemma write_code_to_tool_not_a_handle_witness :
  state_data (with_state_data (insert "agent" (VStr (Py.lit "tools.py")))
                initial_world) !! "agent"
  = Some (VStr (Py.lit "tools.py"))
  ∧ (∀ ag, VStr (Py.lit "tools.py") ≠ VAgent ag)
  ∧ write_code_to_tool []
      (with_state_data (insert "agent" (VStr (Py.lit "tools.py")))
         initial_world)
    = (Raise (AttributeError "write_to_tool"),
       with_state_data (insert "agent" (VStr (Py.lit "tools.py")))
         initial_world).
Proof.
  assert (∀ ag, VStr (Py.lit "tools.py") ≠ VAgent ag) as Hna
    by (intros ag; discriminate).
  split; [reflexivity|]. split; [exact Hna|].
  apply (write_code_to_tool_not_a_handle _ (VStr (Py.lit "tools.py")) []);
    [reflexivity | exact Hna].
Defined.

Lemma run_cons c cs w : run (c :: cs) w = run cs (snd (step c w)).
Proof. done. Qed.

Lemma write_code_to_tool_bound code w :
  handle_bound (state_data w) →
  fst (write_code_to_tool code w) = Ok tt
  ∧ state_data (snd (write_code_to_tool code w)) = state_data w
  ∧ tool_module (snd (write_code_to_tool code w)) = tool_module w ++ [code].
Proof. intros (ag & Hag). run_py. by rewrite Hag. Qed.

(** With a handle bound, a run of writes appends the code texts to the
    generated module in the order of the calls, after what was there; an
    empty text is appended as an empty fragment like any other. *)
Theorem writes_append_in_order (codes : list (list N)) (w : world) :
  handle_bound (state_data w) →
  tool_module (run (CallWriteCodeToTool <$> codes) w)
  = tool_module w ++ codes.
Proof.
  revert w. induction codes as [|code codes IH]; intros w Hb.
  - simpl. by rewrite app_nil_r.
  - destruct (write_code_to_tool_bound code w Hb) as (_ & Hd & Hm).
    rewrite fmap_cons, run_cons.
    replace (snd (step (CallWriteCodeToTool code) w))
      with (snd (write_code_to_tool code w))
      by (simpl; by destruct (write_code_to_tool code w)).
    rewrite IH.
    + by rewrite Hm, <- app_assoc.
    + unfold handle_bound. by rewrite Hd.
Qed.

Lemma writes_append_in_order_witness :
  handle_bound (state_data (bound (VStr (Py.lit "Acme")) acme_world))
  ∧ tool_module
      (run (CallWriteCodeToTool <$> [Py.lit "a = 1"; []; Py.lit "b = 2"])
         (bound (VStr (Py.lit "Acme")) acme_world))
    = tool_module (bound (VStr (Py.lit "Acme")) acme_world)
      ++ [Py.lit "a = 1"; []; Py.lit "b = 2"].
Proof.
  assert (handle_bound (state_data (bound (VStr (Py.lit "Acme")) acme_world)))
    as Hb by (eexists; reflexivity).
  split; [exact Hb|]. exact (writes_append_in_order _ _ Hb).
Defined.

End AgentSessionFacts.

(** ** The payment handlers *)

Module ServerFacts.
Import Server.

Ltac run_py :=
  unfold initiate_payment, get_payment_status, bind, ret, raise, gets,
    modify; simpl.

Lemma pending_not_completed :
  Py.eqb (Py.lit "PENDING") (Py.lit "COMPLETED") = false.
Proof. apply bool_decide_eq_false. discriminate. Qed.

(** The store after a payment was filed under [uuid]. *)
Lemma initiate_payment_eq request uuid now st :
  initiate_payment request uuid now st
  = (Ok {| init_payment_id := uuid;
           init_status := Py.lit "PENDING";
           init_created_at := now |},
     {| payments_store :=
          <[uuid := {| pay_status := Py.lit "PENDING";
                       pay_amount := amount request;
                       pay_currency := currency request;
                       pay_reference := reference request;
                       pay_created_at := now |}]> (payments_store st);
        payouts_store := payouts_store st |}).
Proof.
  unfold initiate_payment, bind, modify, gets, ret.
  cbn [payments_store]. by rewrite lookup_insert_eq.
Qed.

Lemma get_payment_status_found payment_id now st p :
  payments_store st !! payment_id = Some p →
  get_payment_status payment_id now st
  = (Ok {| st_payment_id := payment_id;
           st_status := pay_status p;
           st_processed_at :=
             if Py.eqb (pay_status p) (Py.lit "COMPLETED")
             then Some now else None;
           st_amount := pay_amount p;
           st_currency := pay_currency p;
           st_reference := pay_reference p |}, st).
Proof. intros H. unfold get_payment_status, bind, gets, ret. by rewrite H. Qed.

(** A status query never writes to the store. *)
Lemma get_payment_status_store payment_id now st :
  snd (get_payment_status payment_id now st) = st.
Proof. run_py. by destruct (payments_store st !! payment_id). Qed.

(** C7. [POST /payments/initiate] answers with the identifier generated for
    this request, status [PENDING] and the creation time, and files the
    payment under that identifier with status [PENDING], leaving every other
    payment as it was; a status query for that identifier made next answers
    [PENDING] with no processing time. *)
Theorem initiate_payment_then_status
    (request : PaymentInitiationRequest) (uuid now later : list N)
    (st : store) :
  ∃ st',
    initiate_payment request uuid now st
    = (Ok {| init_payment_id := uuid;
             init_status := Py.lit "PENDING";
             init_created_at := now |}, st')
    ∧ payments_store st' !! uuid
      = Some {| pay_status := Py.lit "PENDING";
                pay_amount := amount request;
                pay_currency := currency request;
                pay_reference := reference request;
                pay_created_at := now |}
    ∧ (∀ other, other ≠ uuid →
         payments_store st' !! other = payments_store st !! other)
    ∧ payouts_store st' = payouts_store st
    ∧ get_payment_status uuid later st'
      = (Ok {| st_payment_id := uuid;
               st_status := Py.lit "PENDING";
               st_processed_at := None;
               st_amount := amount request;
               st_currency := currency request;
               st_reference := reference request |}, st').
Proof.
  eexists. split; [apply initiate_payment_eq|]. cbn [payments_store].
  split; [apply lookup_insert_eq|].
  split; [by intros other Hne; rewrite lookup_insert_ne|].
  split; [done|].
  erewrite get_payment_status_found by apply lookup_insert_eq.
  cbn [pay_status pay_amount pay_currency pay_reference].
  by rewrite pending_not_completed.
Qed.

(** The design's third scenario. *)
Example initiate_sample_then_status :
  fst (get_payment_status (Py.lit "id-1") (Py.lit "2024-01-01T00:00:05")
         (snd (initiate_payment sample_request (Py.lit "id-1")
                 (Py.lit "2024-01-01T00:00:00") initial_store)))
  = Ok {| st_payment_id := Py.lit "id-1";
          st_status := Py.lit "PENDING";
          st_processed_at := None;
          st_amount := 100%float;
          st_currency := Py.lit "USD";
          st_reference := None |}.
Proof. by vm_compute. Qed.

(** C8. A status query for an identifier that is not in the payment store
    raises the 404 error and leaves the store as it was. *)
Theorem get_payment_status_unknown
    (payment_id now : list N) (st : store) :
  payments_store st !! payment_id = None →
  get_payment_status payment_id now st
  = (Raise (HTTPException 404 (Py.lit "Payment not found")), st).
Proof. intros H. run_py. by rewrite H. Qed.

Lemma get_payment_status_unknown_witness :
  payments_store initial_store !! Py.lit "no-such-payment" = None
  ∧ get_payment_status (Py.lit "no-such-payment")
      (Py.lit "2024-01-01T00:00:00") initial_store
    = (Raise (HTTPException 404 (Py.lit "Payment not found")),
       initial_store).
Proof.
  split; [reflexivity|].
  apply (get_payment_status_unknown (Py.lit "no-such-payment")
           (Py.lit "2024-01-01T00:00:00") initial_store).
  reflexivity.
Defined.

End ServerFacts.

(** ** Sequences of requests *)

Module ServerSessionFacts.
Import Server ServerFacts.

Lemma send_payout_eq request uuid now st :
  send_payout request uuid now st
  = (Ok {| resp_payout_id := uuid;
           resp_status := Py.lit "SENT";
           resp_sent_at := now |},
     {| payments_store := payments_store st;
        payouts_store :=
          <[uuid := {| out_status := Py.lit "SENT";
                       out_amount := payout_amount request;
                       out_currency := payout_currency request;
                       out_sent_at := now |}]> (payouts_store st) |}).
Proof.
  unfold send_payout, bind, modify, gets, ret.
  cbn [payouts_store]. by rewrite lookup_insert_eq.
Qed.

(** The answer to a status query is read off the payment store alone. *)
Lemma get_payment_status_ext payment_id now st1 st2 :
  payments_store st1 !! payment_id = payments_store st2 !! payment_id →
  fst (get_payment_status payment_id now st1)
  = fst (get_payment_status payment_id now st2).
Proof.
  intros H. unfold get_payment_status, bind, gets, ret, raise. simpl.
  rewrite H. by destruct (payments_store st2 !! payment_id).
Qed.

(** The payment store after one request. *)
Lemma handle_payments_store r st :
  payments_store (handle r st)
  = match r with
    | PostPaymentsInitiate body uuid now =>
        <[uuid := {| pay_status := Py.lit "PENDING";
                     pay_amount := amount body;
                     pay_currency := currency body;
                     pay_reference := reference body;
                     pay_created_at := now |}]> (payments_store st)
    | _ => payments_store st
    end.
Proof.
  destruct r; simpl; try done.
  - by rewrite initiate_payment_eq.
  - by rewrite get_payment_status_store.
  - by rewrite send_payout_eq.
Qed.

Lemma serve_snoc rs r st : serve (rs ++ [r]) st = handle r (serve rs st).
Proof. unfold serve. by rewrite foldl_app. Qed.

Lemma serve_app rs1 rs2 st : serve (rs1 ++ rs2) st = serve rs2 (serve rs1 st).
Proof. unfold serve. by rewrite foldl_app. Qed.

Lemma initiated_ids_snoc rs r :
  initiated_ids (rs ++ [r])
  = initiated_ids rs
    ++ match r with
       | PostPaymentsInitiate _ uuid _ => [uuid]
       | _ => []
       end.
Proof. unfold initiated_ids. rewrite omap_app. by destruct r. Qed.

(** Requests that file nothing under [id] leave its entry alone. *)
Lemma serve_other_ids rs id st :
  id ∉ initiated_ids rs →
  payments_store (serve rs st) !! id = payments_store st !! id.
Proof.
  induction rs as [|r rs IH] using rev_ind; [done|].
  rewrite serve_snoc, initiated_ids_snoc, handle_payments_store.
  intros Hnot. rewrite <- IH by (intros Hin; apply Hnot, elem_of_app; by left).
  destruct r; try done.
  rewrite lookup_insert_ne; [done|].
  intros ->. apply Hnot, elem_of_app. right. by left.
Qed.

(** What the payment store of a served sequence holds under an identifier. *)
Lemma serve_payments_invariant rs id :
  match payments_store (serve rs initial_store) !! id with
  | Some p => pay_status p = Py.lit "PENDING" ∧ id ∈ initiated_ids rs
  | None => id ∉ initiated_ids rs
  end.
Proof.
  induction rs as [|r rs IH] using rev_ind.
  - simpl. rewrite lookup_empty. by intros Hin%elem_of_nil.
  - rewrite serve_snoc, initiated_ids_snoc, handle_payments_store.
    destruct r; rewrite ?app_nil_r; try done.
    destruct (decide (uuid = id)) as [-> | Hne].
    + rewrite lookup_insert_eq. split; [done|].
      apply elem_of_app. right. by left.
    + rewrite lookup_insert_ne by done.
      destruct (payments_store (serve rs initial_store) !! id).
      * destruct IH as [? ?]. split; [done|]. apply elem_of_app. by left.
      * intros [? | Hin%list_elem_of_singleton]%elem_of_app; [done|].
        by subst.
Qed.

(** A payout answers with the identifier generated for it, status [SENT]
    and the sending time, files the payout under that identifier without
    touching any other payout, and leaves the payment store alone. *)
Theorem send_payout_files_payout
    (request : PayoutRequest) (uuid now : list N) (st : store) :
  ∃ st',
    send_payout request uuid now st
    = (Ok {| resp_payout_id := uuid;
             resp_status := Py.lit "SENT";
             resp_sent_at := now |}, st')
    ∧ payouts_store st' !! uuid
      = Some {| out_status := Py.lit "SENT";
                out_amount := payout_amount request;
                out_currency := payout_currency request;
                out_sent_at := now |}
    ∧ (∀ other, other ≠ uuid →
         payouts_store st' !! other = payouts_store st !! other)
    ∧ payments_store st' = payments_store st.
Proof.
  eexists. split; [apply send_payout_eq|]. cbn [payouts_store payments_store].
  split; [apply lookup_insert_eq|].
  split; [by intros other Hne; rewrite lookup_insert_ne | done].
Qed.

(** Payments are isolated from the rest of the traffic: the answer to a
    status query for [payment_id] is the same before and after any request
    other than an initiation under that very identifier; a payout filed
    under the same identifier does not make it a payment. *)
Theorem status_unchanged_by_other_requests
    (r : request) (payment_id now : list N) (st : store) :
  (∀ body t, r ≠ PostPaymentsInitiate body payment_id t) →
  fst (get_payment_status payment_id now (handle r st))
  = fst (get_payment_status payment_id now st).
Proof.
  intros Hr. apply get_payment_status_ext. rewrite handle_payments_store.
  destruct r; try done.
  rewrite lookup_insert_ne; [done|]. intros ->. by destruct (Hr body now0).
Qed.

Lemma status_unchanged_by_other_requests_witness :
  (∀ body t,
     PostPayoutsSend sample_payout (Py.lit "id-1") (Py.lit "2024-01-01T00:00")
     ≠ PostPaymentsInitiate body (Py.lit "id-1") t)
  ∧ fst (get_payment_status (Py.lit "id-1") (Py.lit "2024-01-01T00:01")
           (handle (PostPayoutsSend sample_payout (Py.lit "id-1")
                      (Py.lit "2024-01-01T00:00")) initial_store))
    = fst (get_payment_status (Py.lit "id-1") (Py.lit "2024-01-01T00:01")
             initial_store).
Proof.
  assert (∀ body t,
            PostPayoutsSend sample_payout (Py.lit "id-1")
              (Py.lit "2024-01-01T00:00")
            ≠ PostPaymentsInitiate body (Py.lit "id-1") t) as H
    by (intros body t; discriminate).
  split; [exact H|].
  exact (status_unchanged_by_other_requests _ (Py.lit "id-1")
           (Py.lit "2024-01-01T00:01") initial_store H).
Defined.

(** After any sequence of requests served from an empty store, a status
    query either finds the payment, and then answers [PENDING] with no
    processing time, or answers 404; it finds it exactly when some earlier
    request initiated a payment under that identifier. Nothing is ever
    removed and nothing ever leaves [PENDING]. *)
Theorem status_after_requests (rs : list request) (payment_id now : list N) :
  match fst (get_payment_status payment_id now (serve rs initial_store)) with
  | Ok resp =>
      st_status resp = Py.lit "PENDING"
      ∧ st_processed_at resp = None
      ∧ payment_id ∈ initiated_ids rs
  | Raise e =>
      e = HTTPException 404 (Py.lit "Payment not found")
      ∧ payment_id ∉ initiated_ids rs
  end.
Proof.
  pose proof (serve_payments_invariant rs payment_id) as Hinv.
  destruct (payments_store (serve rs initial_store) !! payment_id)
    as [p|] eqn:Hp.
  - destruct Hinv as [Hst Hin].
    rewrite (get_payment_status_found _ now _ p Hp).
    cbn [fst st_status st_processed_at]. rewrite Hst.
    by rewrite pending_not_completed.
  - unfold get_payment_status, bind, gets, raise. simpl. by rewrite Hp.
Qed.

(** A payment stays readable through later traffic: after a payment was
    initiated under [uuid], and whatever was served before and after, as
    long as nothing later was initiated under [uuid] again, a status query
    returns the amount, currency and reference of that request. *)
Theorem status_returns_last_initiation
    (before after : list request) (body : PaymentInitiationRequest)
    (uuid now later : list N) (st : store) :
  uuid ∉ initiated_ids after →
  fst (get_payment_status uuid later
         (serve (before ++ PostPaymentsInitiate body uuid now :: after) st))
  = Ok {| st_payment_id := uuid;
          st_status := Py.lit "PENDING";
          st_processed_at := None;
          st_amount := amount body;
          st_currency := currency body;
          st_reference := reference body |}.
Proof.
  intros Hnot.
  assert (payments_store
            (serve (before ++ PostPaymentsInitiate body uuid now :: after) st)
          !! uuid
          = Some {| pay_status := Py.lit "PENDING";
                    pay_amount := amount body;
                    pay_currency := currency body;
                    pay_reference := reference body;
                    pay_created_at := now |}) as Hp.
  { rewrite serve_app.
    change (serve (?r :: ?rs) ?s) with (serve rs (handle r s)).
    rewrite (serve_other_ids _ _ _ Hnot), handle_payments_store.
    apply lookup_insert_eq. }
  rewrite (get_payment_status_found _ later _ _ Hp).
  cbn [fst pay_status pay_amount pay_currency pay_reference].
  by rewrite pending_not_completed.
Qed.

Lemma status_returns_last_initiation_witness :
  (Py.lit "id-1"
   ∉ initiated_ids
       [PostPayoutsSend sample_payout (Py.lit "id-1") (Py.lit "t2");
        PostPaymentsInitiate sample_request (Py.lit "id-2") (Py.lit "t3")])
  ∧ fst (get_payment_status (Py.lit "id-1") (Py.lit "t4")
           (serve ([GetHealth]
                   ++ PostPaymentsInitiate sample_request (Py.lit "id-1")
                        (Py.lit "t1")
                   :: [PostPayoutsSend sample_payout (Py.lit "id-1")
                         (Py.lit "t2");
                       PostPaymentsInitiate sample_request (Py.lit "id-2")
                         (Py.lit "t3")])
              initial_store))
    = Ok {| st_payment_id := Py.lit "id-1";
            st_status := Py.lit "PENDING";
            st_processed_at := None;
            st_amount := amount sample_request;
            st_currency := currency sample_request;
            st_reference := reference sample_request |}.
Proof.
  assert (Py.lit "id-1"
          ∉ initiated_ids
              [PostPayoutsSend sample_payout (Py.lit "id-1") (Py.lit "t2");
               PostPaymentsInitiate sample_request (Py.lit "id-2")
                 (Py.lit "t3")]) as H.
  { vm_compute. intros Hin. apply list_elem_of_singleton in Hin.
    discriminate. }
  split; [exact H|].
  exact (status_returns_last_initiation [GetHealth] _ sample_request
           (Py.lit "id-1") (Py.lit "t1") (Py.lit "t4") initial_store H).
Defined.

End ServerSessionFacts.
